(** * MIT Notes backend: the upload, search and listing routes of
    [server/server.js], embedded and verified.

    The server is an Express application over two stores: the [Note]
    collection of a MongoDB database (through mongoose) and the [uploads/]
    directory on disk (through multer).  The embedding keeps the shape of
    the source: JavaScript values that may be [undefined], the moderation
    function over strings, a world made of the collection and the
    directory, handlers written in a state-and-exception monad whose
    [try ... catch] turns a thrown error into a 500 answer.

    Conventions of the model.
    - A string is a sequence of 8-bit characters and the text is ASCII:
      [toLowerCase] folds [A-Z] only, and white space is the six ASCII
      white-space characters.
    - One request is processed at a time; the readings of [Date.now()] are
      inputs of a request.
    - What mongoose, multer and Express do around the code of the
      repository (schema validation on [save], the file filter and the
      disk storage, the default error handler) is written out where the
      routes rely on it. *)

From Stdlib Require Import Ascii.
From stdpp Require Import gmap strings list pretty sorting.

Local Open Scope Z_scope.

(** ** JavaScript values that reach the routes *)

(** A text field of a multipart body, a query parameter or a field of a
    document: absent ([undefined]), [null], or a string. *)
Inductive jsval :=
  | JUndefined
  | JNull
  | JString (s : string).

Global Instance jsval_eq_dec : EqDecision jsval.
Proof. solve_decision. Defined.

(** [!v] of JavaScript: [undefined], [null] and the empty string are falsy,
    every other string is truthy. *)
Definition js_not (v : jsval) : bool :=
  match v with
  | JString s => bool_decide (s = "")
  | _ => true
  end.

(** [a || b]. *)
Definition js_or (a b : jsval) : jsval := if js_not a then b else a.

(** A value inside a template literal, [`${v}`]. *)
Definition js_to_string (v : jsval) : string :=
  match v with
  | JUndefined => "undefined"
  | JNull => "null"
  | JString s => s
  end.

(** ** String primitives *)

Module Str.

(** [c.toLowerCase()] on one ASCII character. *)
Definition lower_char (c : ascii) : ascii :=
  let n := N_of_ascii c in
  if ((65 <=? n) && (n <=? 90))%N then ascii_of_N (n + 32) else c.

(** [s.toLowerCase()]. *)
Fixpoint toLowerCase (s : string) : string :=
  match s with
  | EmptyString => EmptyString
  | String c r => String (lower_char c) (toLowerCase r)
  end.

(** [s.startsWith(p)]. *)
Fixpoint startsWith (s p : string) : bool :=
  match p, s with
  | EmptyString, _ => true
  | String _ _, EmptyString => false
  | String a p', String b s' => bool_decide (a = b) && startsWith s' p'
  end.

(** [s.includes(w)]: [w] occurs in [s] at some position. *)
Fixpoint includes (s w : string) : bool :=
  startsWith s w ||
  match s with
  | EmptyString => false
  | String _ r => includes r w
  end.

(** [s.replace(/\s+/g, '-')]: every maximal run of white space becomes
    one dash.  [in_run] says that the previous character was white. *)
Fixpoint dash_spaces_go (in_run : bool) (s : string) : string :=
  match s with
  | EmptyString => EmptyString
  | String c r =>
      if Ascii.is_space c
      then (if in_run then dash_spaces_go true r
            else String "-" (dash_spaces_go true r))
      else String c (dash_spaces_go false r)
  end.
Definition dash_spaces (s : string) : string := dash_spaces_go false s.

(** The backslash, by its code. *)
Definition backslash : ascii := "092"%char.

(** [s.replace(/\\/g, "/")]: every backslash becomes a slash. *)
Fixpoint slash_backslashes (s : string) : string :=
  match s with
  | EmptyString => EmptyString
  | String c r =>
      String (if bool_decide (c = backslash) then "/"%char else c)
             (slash_backslashes r)
  end.

(** The characters of a string, to speak of the ones it contains. *)
Fixpoint chars (s : string) : list ascii :=
  match s with
  | EmptyString => []
  | String c r => c :: chars r
  end.

End Str.

(** ** 2. Moderation system *)

Definition BANNED_KEYWORDS : list string :=
  ["gore"; "violence"; "nude"; "nsfw"; "xxx"; "kill"; "blood"].

(** [checkContentSafety]: [true] when no banned word is found. *)
Definition checkContentSafety (text : jsval) : bool :=
  if js_not text then true
  else
    match text with
    | JString s =>
        let lowerText := Str.toLowerCase s in
        negb (existsb (fun word => Str.includes lowerText word) BANNED_KEYWORDS)
    | JUndefined | JNull => true (* falsy, answered by the line above *)
    end.

(** The moderation contract in the words of the specification: a term
    occurs in a text as a case-insensitive substring when some segment of
    the text equals the term once both are put in lower case. *)
Definition ci_occurs (term text : string) : Prop :=
  ∃ pre mid post,
    text = pre +:+ mid +:+ post ∧ Str.toLowerCase mid = Str.toLowerCase term.

Definition denylisted (text : string) : Prop :=
  ∃ term, term ∈ BANNED_KEYWORDS ∧ ci_occurs term text.

(** ** 1. Database schema *)

(** A document of the [Note] model.  [uploadDate] is a [Date], kept as the
    milliseconds of [Date.now()]. *)
Record Note := {
  branch : jsval;
  subject : jsval;
  topic : jsval;
  description : jsval;
  filePath : jsval;
  originalName : jsval;
  uploadDate : Z;
}.

(** The paths the schema marks [required: true], in schema order. *)
Definition required_paths : list (string * (Note → jsval)) :=
  [("branch", branch); ("subject", subject); ("topic", topic);
   ("filePath", filePath)].

(** mongoose's required validator on a [String] path: the value must be a
    string of non-zero length. *)
Definition check_required (v : jsval) : bool := negb (js_not v).

(** The required paths a document fails on. *)
Definition missing_paths (n : Note) : list string :=
  (filter (λ p, check_required (p.2 n) = false) required_paths).*1.

(** The filter of a [find]: every document, or the [$text] operator. *)
Inductive Filter :=
  | All
  | Text (search : string).

(** The text index on [subject], [topic] and [description] belongs to the
    database: which documents a [$search] string matches, and in which
    order they come back, is the engine's business. *)
Class TextIndex := text_search : string → list Note → list Note.

(** ** The world: the collection, the uploads directory, the accesses *)

(** What the routes do to the two stores, in order. *)
Inductive Effect :=
  | DbFind (f : Filter)
  | DbInsert (n : Note)
  | FsWrite (p : string)
  | FsUnlink (p : string).

Record World := {
  notes : list Note;             (* the collection, in insertion order *)
  db_up : bool;                  (* the connection serves operations *)
  disk : gmap string string;     (* uploads/: path to bytes *)
  trace : list Effect;           (* accesses made so far, oldest first *)
}.

Definition log (e : Effect) (w : World) : World :=
  {| notes := notes w; db_up := db_up w; disk := disk w;
     trace := trace w ++ [e] |}.
Definition set_notes (l : list Note) (w : World) : World :=
  {| notes := l; db_up := db_up w; disk := disk w; trace := trace w |}.
Definition set_disk (d : gmap string string) (w : World) : World :=
  {| notes := notes w; db_up := db_up w; disk := d; trace := trace w |}.

(** ** Errors and the handler monad *)

Inductive exn :=
  | Error (message : string)              (* [new Error(message)] *)
  | ValidationError (paths : list string) (* mongoose, on [save] *)
  | MongooseError                         (* the store does not answer *)
  | ENOENT (p : string).                  (* [fs]: no such file *)

(** A computation reads and changes the world and either throws or
    returns. *)
Definition M (A : Type) : Type := World → (exn + A) * World.

Global Instance M_ret : MRet M := λ A (a : A) w, (inr a, w).
Global Instance M_bind : MBind M := λ A B (k : A → M B) (m : M A) w,
  match m w with
  | (inl e, w') => (inl e, w')
  | (inr a, w') => k a w'
  end.

Definition throw {A} (e : exn) : M A := λ w, (inl e, w).

(** [try { m } catch (error) { h error }]. *)
Definition try_catch {A} (m : M A) (h : exn → M A) : M A := λ w,
  match m w with
  | (inl e, w') => h e w'
  | (inr a, w') => (inr a, w')
  end.

(** Reading and changing the world. *)
Definition gets {A} (f : World → A) : M A := λ w, (inr (f w), w).
Definition modify (f : World → World) : M unit := λ w, (inr (), f w).
Definition effect (e : Effect) : M unit := modify (log e).

(** ** The Note store (mongoose) *)

(** [sort({ uploadDate: -1 })]: most recent first.  Documents of equal date
    keep their collection order. *)
Fixpoint insert_desc (n : Note) (l : list Note) : list Note :=
  match l with
  | [] => [n]
  | m :: r =>
      if uploadDate m <=? uploadDate n then n :: l else m :: insert_desc n r
  end.
Definition sort_desc (l : list Note) : list Note := foldr insert_desc [] l.

(** [a] may come before [b] in a listing: [a] is not older than [b]. *)
Definition not_older (a b : Note) : Prop := uploadDate b ≤ uploadDate a.
(** [a] is strictly more recent than [b]. *)
Definition newer (a b : Note) : Prop := uploadDate b < uploadDate a.

Section store.
Context `{TextIndex}.

(** The documents a filter selects. *)
Definition select (f : Filter) (l : list Note) : list Note :=
  match f with
  | All => l
  | Text search => text_search search l
  end.

(** [await Note.find(f).sort({ uploadDate: -1 }).limit(n)] when [by_date]
    is set, [await Note.find(f).limit(n)] otherwise. *)
Definition Note_find (f : Filter) (by_date : bool) (limit : nat)
    : M (list Note) :=
  _ ← effect (DbFind f);
  up ← gets db_up;
  if up : bool
  then
    found ← gets (λ w, select f (notes w));
    mret (take limit (if by_date then sort_desc found else found))
  else throw MongooseError.
End store.

(** [new Note({ ... })]: the fields given, and the default of
    [uploadDate], [Date.now]. *)
Definition new_Note (now : Z)
    (branch subject topic description filePath originalName : jsval) : Note :=
  {| branch := branch; subject := subject; topic := topic;
     description := description; filePath := filePath;
     originalName := originalName; uploadDate := now |}.

(** [await newNote.save()]: the document is validated against the schema,
    then inserted. *)
Definition Note_save (n : Note) : M unit :=
  match missing_paths n with
  | [] =>
      _ ← effect (DbInsert n);
      up ← gets db_up;
      if up : bool
      then modify (λ w, set_notes (notes w ++ [n]) w)
      else throw MongooseError
  | paths => throw (ValidationError paths)
  end.

(** ** The Blob store ([fs] and multer) *)

(** The write multer's disk storage makes: creates or overwrites. *)
Definition fs_write (p data : string) : M unit :=
  _ ← effect (FsWrite p);
  modify (λ w, set_disk (<[p := data]> (disk w)) w).

(** [fs.unlinkSync(p)]. *)
Definition fs_unlinkSync (p : string) : M unit :=
  _ ← effect (FsUnlink p);
  present ← gets (λ w, disk w !! p);
  match present with
  | Some _ => modify (λ w, set_disk (delete p (disk w)) w)
  | None => throw (ENOENT p)
  end.

(** ** 3. File storage configuration *)

(** The file part of a multipart body, as multer hands it to the
    callbacks. *)
Record FilePart := {
  originalname : string;
  mimetype : string;
  content : string;
}.

(** [req.file] once the file is stored. *)
Record File := {
  file_originalname : string;
  file_mimetype : string;
  path : string;
}.

Inductive Platform := Posix | Win32.

(** [path.join('uploads/', name)] for a base name: the platform's
    separator after the directory. *)
Definition path_join_uploads (os : Platform) (name : string) : string :=
  match os with
  | Posix => "uploads/" +:+ name
  | Win32 => "uploads" +:+ String Str.backslash name
  end.

(** [storage.filename]: timestamp, dash, original name with white space
    dashed. *)
Definition storage_filename (now : Z) (file : FilePart) : string :=
  pretty now +:+ "-" +:+ Str.dash_spaces (originalname file).

(** [fileFilter]: [cb(null, true)] or [cb(new Error(...), false)]. *)
Definition fileFilter (file : FilePart) : exn + bool :=
  if bool_decide (mimetype file = "application/pdf")
  then inr true
  else inl (Error "Only PDF files are allowed!").

(** [upload.single('file')]: without a file part [req.file] stays
    undefined; with one, the filter decides before anything is stored, an
    error of the filter is passed on, and an accepted file is written under
    the name the storage gives. *)
Definition upload_single (os : Platform) (now : Z) (part : option FilePart)
    : M (option File) :=
  match part with
  | None => mret None
  | Some file =>
      match fileFilter file with
      | inl err => throw err
      | inr false => mret None
      | inr true =>
          let p := path_join_uploads os (storage_filename now file) in
          _ ← fs_write p (content file);
          mret (Some {| file_originalname := originalname file;
                        file_mimetype := mimetype file;
                        path := p |})
      end
  end.

(** ** 4. API routes *)

Record External := {
  source : string;
  title : string;
  summary : string;
}.

(** What a route sends. *)
Inductive Payload :=
  | Message (message : string)     (* [{ message }] *)
  | ErrorText (error : string)     (* [{ error }] *)
  | ErrorOf (e : exn)              (* [{ error: e.message }] *)
  | SearchResult (internal : list Note) (external : option External)
  | NoteList (l : list Note)
  | ErrorPage (e : exn).           (* Express's own answer to an error *)

Record Response := {
  status : Z;
  payload : Payload;
}.

(** [res.status(code).json(body)], and [res.json(body)] with the default
    status 200. *)
Definition res_status_json (code : Z) (body : Payload) : Response :=
  {| status := code; payload := body |}.
Definition res_json (body : Payload) : Response := res_status_json 200 body.

(** The application registers no error-handling middleware, so an error a
    middleware passes on reaches Express's default handler: the status is
    the error's own [status] when it has one, which none of [exn] has, and
    500 otherwise. *)
Definition run (m : M Response) (w : World) : Response * World :=
  match m w with
  | (inr r, w') => (r, w')
  | (inl e, w') => ({| status := 500; payload := ErrorPage e |}, w')
  end.

(** The fields of a multipart body. *)
Record Body := {
  body_branch : jsval;
  body_subject : jsval;
  body_topic : jsval;
  body_description : jsval;
}.

Record UploadRequest := {
  body : Body;
  file_part : option FilePart;
}.

(** The callback of [app.post('/api/upload', ...)]; [req_file] is
    [req.file]. *)
Definition upload_callback (now : Z) (req_body : Body) (req_file : option File)
    : M Response :=
  try_catch
    (let branch := body_branch req_body in
     let subject := body_subject req_body in
     let topic := body_topic req_body in
     let description := body_description req_body in
     if negb (checkContentSafety topic) || negb (checkContentSafety description)
     then
       _ ← match req_file with
           | Some f => fs_unlinkSync (path f)
           | None => mret ()
           end;
       mret (res_status_json 400
               (ErrorText "Content flagged by moderation system."))
     else
       match req_file with
       | None => mret (res_status_json 400 (ErrorText "No file uploaded."))
       | Some f =>
           let newNote :=
             new_Note now branch subject topic description
               (JString (Str.slash_backslashes (path f)))
               (JString (file_originalname f)) in
           _ ← Note_save newNote;
           mret (res_status_json 201 (Message "Upload successful!"))
       end)
    (λ error, mret (res_status_json 500 (ErrorOf error))).

(** [POST /api/upload]: multer first, then the callback.  [t_file] and
    [t_note] are the two readings of [Date.now()], for the file name and
    for the document. *)
Definition post_upload (os : Platform) (t_file t_note : Z)
    (req : UploadRequest) : World → Response * World :=
  run (req_file ← upload_single os t_file (file_part req);
       upload_callback t_note (body req) req_file).

Section search.
Context `{TextIndex}.

(** The callback of [app.get('/api/search', ...)]; [q] and [branch] are
    [req.query.q] and [req.query.branch]. *)
Definition search_callback (q branch : jsval) : M Response :=
  let query := q in
  if js_not query then mret (res_json (SearchResult [] None))
  else
    try_catch
      (internalResults ← Note_find (Text (js_to_string query)) false 10;
       let externalKnowledge :=
         if (length internalResults <? 3)%nat
         then Some
           {| source := "External Knowledge Base";
              title := "Concept Summary: " +:+ js_to_string query;
              summary :=
                "We found limited local PDFs, but here is what you need to know about "
                +:+ js_to_string query
                +:+ ". This topic usually covers foundational principles in "
                +:+ js_to_string (js_or branch (JString "engineering"))
                +:+ ". Important questions often involve derivations and practical applications." |}
         else None in
       mret (res_json (SearchResult internalResults externalKnowledge)))
      (λ error, mret (res_status_json 500 (ErrorText "Search failed"))).

(** [GET /api/search?q=...&branch=...]. *)
Definition get_search (q branch : jsval) : World → Response * World :=
  run (search_callback q branch).

(** [GET /api/notes]. *)
Definition get_notes : World → Response * World :=
  run (try_catch
         (notes ← Note_find All true 20;
          mret (res_json (NoteList notes)))
         (λ err, mret (res_status_json 500 (ErrorOf err)))).
End search.

(** ** Names for the steps of the upload route *)

(** The world once multer has stored a file under [p]. *)
Definition stored (p data : string) (w : World) : World :=
  set_disk (<[p := data]> (disk w)) (log (FsWrite p) w).

(** [req.file] for a file stored under [p]. *)
Definition req_file_of (file : FilePart) (p : string) : File :=
  {| file_originalname := originalname file;
     file_mimetype := mimetype file;
     path := p |}.

(** The path multer gives a file received at time [now]. *)
Definition blob_path (os : Platform) (now : Z) (file : FilePart) : string :=
  path_join_uploads os (storage_filename now file).

(** The document the callback builds. *)
Definition note_of (now : Z) (b : Body) (f : File) : Note :=
  new_Note now (body_branch b) (body_subject b) (body_topic b)
    (body_description b)
    (JString (Str.slash_backslashes (path f)))
    (JString (file_originalname f)).

(** The moderation test of the callback. *)
Definition flagged (b : Body) : bool :=
  negb (checkContentSafety (body_topic b))
  || negb (checkContentSafety (body_description b)).

(** ** Conditions and invariants of the upload route *)

(** A request the route takes through to a saved document: it carries
    [file], a PDF, its topic and description pass moderation, and the
    fields the schema requires are non-empty strings. *)
Definition acceptable (req : UploadRequest) (file : FilePart) : Prop :=
  file_part req = Some file
  ∧ mimetype file = "application/pdf"
  ∧ flagged (body req) = false
  ∧ check_required (body_branch (body req)) = true
  ∧ check_required (body_subject (body req)) = true
  ∧ check_required (body_topic (body req)) = true.

(** Every document of the collection points to a blob that is on disk:
    its [filePath] is the slashed form of a path the directory holds. *)
Definition blob_backed (w : World) : Prop :=
  ∀ n, n ∈ notes w →
    ∃ p, filePath n = JString (Str.slash_backslashes p)
         ∧ is_Some (disk w !! p).

(** ** Sample requests and worlds *)

Module Sample.

(** A server that has just started on an empty database. *)
Definition fresh : World :=
  {| notes := []; db_up := true; disk := ∅; trace := [] |}.

Definition pdf (name : string) : FilePart :=
  {| originalname := name; mimetype := "application/pdf";
     content := "%PDF-1.7" |}.

Definition png : FilePart :=
  {| originalname := "figure.png"; mimetype := "image/png";
     content := "PNG" |}.

Definition fields (branch subject topic description : jsval) : Body :=
  {| body_branch := branch; body_subject := subject;
     body_topic := topic; body_description := description |}.

Definition civil (topic description : jsval) : Body :=
  fields (JString "Civil") (JString "Fluid Mechanics") topic description.

Definition request (b : Body) (f : option FilePart) : UploadRequest :=
  {| body := b; file_part := f |}.

(** A stand-in for the text index: a document matches when one of the
    indexed fields contains the search string, whatever the case. *)
Definition contains_ci (search : string) (v : jsval) : bool :=
  match v with
  | JString s => Str.includes (Str.toLowerCase s) (Str.toLowerCase search)
  | _ => false
  end.
Definition substring_index : TextIndex := λ search l,
  filter (λ n, contains_ci search (subject n)
               || contains_ci search (topic n)
               || contains_ci search (description n) = true) l.

(** A stored document about [subject], uploaded at [date]. *)
Definition note (subject : string) (date : Z) : Note :=
  {| branch := JString "Mechanical"; subject := JString subject;
     topic := JString "Lecture"; description := JUndefined;
     filePath := JString "uploads/1-lecture.pdf";
     originalName := JString "lecture.pdf"; uploadDate := date |}.

Definition world_of (l : list Note) : World :=
  {| notes := l; db_up := true; disk := ∅; trace := [] |}.

(** The world after two uploads made within the same millisecond. *)
Definition same_millisecond : World :=
  let first := request (civil (JString "Bernoulli") (JString "intro"))
                 (Some (pdf "a.pdf")) in
  let second := request (civil (JString "Venturi") (JString "notes"))
                  (Some (pdf "b.pdf")) in
  (post_upload Posix 1700 1700 second
     (post_upload Posix 1700 1700 first fresh).2).2.

End Sample.

(** ** The pages of the client, [client/src/App.js] *)

(** The handlers of the two pages, as functions of the page state and of
    what axios gives back: the data of a 2xx answer, or the error it
    rejects with. *)
Module Client.

(** A note as the page reads it. *)
Record PageNote := {
  _id : string;
  branch : string;
  subject : string;
  topic : string;
  description : jsval;
  filePath : string;
}.

(** The knowledge card; the one of the server also has a [source]. *)
Record Card := {
  source : jsval;
  title : string;
  summary : string;
}.

Record Results := {
  internal : list PageNote;
  external : option Card;
}.

Definition mock (id branch subject topic description : string) : PageNote :=
  {| _id := id; branch := branch; subject := subject; topic := topic;
     description := JString description; filePath := "#" |}.

Definition MOCK_NOTES : list PageNote :=
  [mock "1" "Computer Science" "Data Structures" "Binary Trees"
     "Introduction to BST and AVL trees with time complexity analysis.";
   mock "2" "Mechanical" "Thermodynamics" "Laws of Thermodynamics"
     "Summary of 1st and 2nd laws with real-world engine examples.";
   mock "3" "Civil" "Fluid Mechanics" "Bernoulli Principle"
     "Derivations, solved examples, and hydraulic applications.";
   mock "4" "Electrical" "Circuit Theory" "Kirchhoffs Laws"
     "KCL and KVL explained with complex circuit diagrams.";
   mock "5" "Information Technology" "Web Dev" "React Hooks"
     "Deep dive into useState, useEffect and custom hooks."].

Definition API_URL : string := "https://mit-notes.onrender.com/api".

(** The error axios rejects with: [err.code], [err.message] and
    [err.response?.status]. *)
Record AxiosError := {
  code : jsval;
  message : string;
  response_status : option Z;
}.

(** *** axios over the server *)

(** How axios settles an answer: a status from 200 to 299 resolves, any
    other rejects with the status in [response], a message that quotes
    it, and the code of its class. *)
Definition settle (r : Response) : () + AxiosError :=
  if bool_decide (200 ≤ status r < 300) then inl ()
  else
    inr {| code := JString (if bool_decide (status r < 500)
                            then "ERR_BAD_REQUEST" else "ERR_BAD_RESPONSE");
           message := "Request failed with status code "
                      +:+ pretty (status r);
           response_status := Some (status r) |}.

(** The error of a request that got no answer. *)
Definition network_error : AxiosError :=
  {| code := JString "ERR_NETWORK"; message := "Network Error";
     response_status := None |}.

(** What a handler does besides setting state. *)
Inductive Event :=
  | Get (url : string)
  | Post (url : string) (file : FilePart) (fields : Body)
  | ConsoleError
  | Alert (text : string).

(** *** Home *)

Record Home := {
  query : string;
  results : Results;
  loading : bool;
  recent : list PageNote;
  hasSearched : bool;
  serverError : bool;
}.

(** The double quote, by its code. *)
Definition quote : string := String "034"%char EmptyString.

(** The test of [handleSearch] for a failure it expects. *)
Definition search_isBackendError (err : AxiosError) : bool :=
  bool_decide (code err = JString "ERR_NETWORK")
  || bool_decide (message err = "Network Error")
  || bool_decide (response_status err = Some 500).

(** The fallback mock search: the mock notes whose subject or topic
    holds the query, both in lower case. *)
Definition mockResults (query : string) : list PageNote :=
  filter (λ n,
            Str.includes (Str.toLowerCase (subject n)) (Str.toLowerCase query)
            || Str.includes (Str.toLowerCase (topic n)) (Str.toLowerCase query)
            = true)
         MOCK_NOTES.

(** [handleSearch], from the submit of the search form to its last
    [setLoading(false)].  [reply] is the outcome of the [axios.get]. *)
Definition handleSearch (st : Home) (reply : Results + AxiosError)
    : Home * list Event :=
  if bool_decide (query st = "") then (st, [])
  else
    let request := Get (API_URL +:+ "/search?q=" +:+ query st) in
    match reply with
    | inl data =>
        ({| query := query st; results := data; loading := false;
            recent := recent st; hasSearched := true;
            serverError := false |},
         [request])
    | inr err =>
        let isBackendError := search_isBackendError err in
        ({| query := query st;
            results :=
              {| internal := mockResults (query st);
                 external := Some
                   {| source := JUndefined;
                      title := "Generative Concept Summary";
                      summary :=
                        "(Offline Mode) Since the backend is disconnected, we can't search live files for "
                        +:+ quote +:+ query st +:+ quote
                        +:+ ". However, typically this topic involves fundamental engineering concepts found in standard curriculum." |} |};
            loading := false;
            recent := recent st; hasSearched := true;
            serverError := true |},
         request :: (if isBackendError then [] else [ConsoleError]))
    end.

(** *** UploadPage *)

Inductive Status := Uploading | Success | Failed.

(** The form fields the page keeps. *)
Record Form := {
  form_branch : string;
  form_subject : string;
  form_topic : string;
  form_description : string;
}.

Definition empty_form : Form :=
  {| form_branch := "Computer Science"; form_subject := "";
     form_topic := ""; form_description := "" |}.

(** The state of the page.  The chosen file is kept under the names
    multer gives to its parts: [originalname] is the file's [name],
    [mimetype] its [type]. *)
Record UploadPage := {
  file : option FilePart;
  formData : Form;
  status : option Status;
}.

(** The multipart body: the file under [file], then each key of the
    form with its value, a string. *)
Definition form_request (f : FilePart) (form : Form) : UploadRequest :=
  {| body := {| body_branch := JString (form_branch form);
                body_subject := JString (form_subject form);
                body_topic := JString (form_topic form);
                body_description := JString (form_description form) |};
     file_part := Some f |}.

(** The test of [handleSubmit] for a failure it expects. *)
Definition submit_isBackendError (err : AxiosError) : bool :=
  bool_decide (message err = "Network Error")
  || bool_decide (code err = JString "ERR_NETWORK")
  || bool_decide (response_status err = Some 500).

(** [handleSubmit]; [reply] is the outcome of the [axios.post]. *)
Definition handleSubmit (st : UploadPage) (reply : () + AxiosError)
    : UploadPage * list Event :=
  match file st with
  | None => (st, [Alert "Please select a PDF"])
  | Some f =>
      let request :=
        Post (API_URL +:+ "/upload") f (body (form_request f (formData st))) in
      match reply with
      | inl _ =>
          ({| file := None; formData := empty_form; status := Some Success |},
           [request])
      | inr err =>
          let isBackendError := submit_isBackendError err in
          if isBackendError
          then
            ({| file := None; formData := empty_form;
                status := Some Success |},
             [request;
              Alert "Server disconnected or error. Demo upload simulated."])
          else
            ({| file := file st; formData := formData st;
                status := Some Failed |},
             [request; ConsoleError])
      end
  end.

End Client.

(** * Properties *)

(** ** Strings *)

Module StrFacts.
Import Str.

Lemma app_nil (t : string) : "" +:+ t = t.
Proof. reflexivity. Qed.

Lemma app_cons (a : ascii) (s t : string) :
  String a s +:+ t = String a (s +:+ t).
Proof. reflexivity. Qed.

Lemma toLowerCase_app (s t : string) :
  toLowerCase (s +:+ t) = toLowerCase s +:+ toLowerCase t.
Proof.
  induction s as [|c s IH]; [done|].
  rewrite app_cons. cbn [toLowerCase]. by rewrite IH, app_cons.
Qed.

(** A split of the folded text comes from a split of the text. *)
Lemma toLowerCase_split (a b s : string) :
  toLowerCase s = a +:+ b →
  ∃ a' b', s = a' +:+ b' ∧ toLowerCase a' = a ∧ toLowerCase b' = b.
Proof.
  revert s. induction a as [|c a IH]; intros s Hs.
  - exists "", s. by rewrite !app_nil in *.
  - destruct s as [|d s]; [done|].
    rewrite app_cons in Hs. cbn [toLowerCase] in Hs.
    injection Hs as Hc Hs.
    destruct (IH _ Hs) as (a' & b' & -> & Ha & Hb).
    exists (String d a'), b'. rewrite app_cons. cbn [toLowerCase].
    by rewrite Hc, Ha.
Qed.

Lemma startsWith_spec (s p : string) :
  startsWith s p = true ↔ ∃ r, s = p +:+ r.
Proof.
  revert s. induction p as [|a p IH]; intros s.
  - destruct s; (split; [intros _; eexists; by rewrite app_nil | done]).
  - destruct s as [|b s]; cbn [startsWith].
    + split; [done|]. intros [r Hr]. by rewrite app_cons in Hr.
    + rewrite andb_true_iff, bool_decide_eq_true, IH. split.
      * intros [-> [r ->]]. exists r. by rewrite app_cons.
      * intros [r Hr]. rewrite app_cons in Hr. injection Hr as -> ->. eauto.
Qed.

Lemma includes_spec (s w : string) :
  includes s w = true ↔ ∃ pre post, s = pre +:+ w +:+ post.
Proof.
  induction s as [|c s IH]; cbn [includes]; rewrite orb_true_iff.
  - rewrite startsWith_spec. split.
    + intros [[r Hr]|?]; [|done]. exists "", r. by rewrite app_nil.
    + intros (pre & post & Hs). left. destruct pre; [|done].
      rewrite app_nil in Hs. eauto.
  - rewrite startsWith_spec, IH. split.
    + intros [[r Hr]|(pre & post & ->)].
      * exists "", r. by rewrite app_nil.
      * exists (String c pre), post. by rewrite app_cons.
    + intros ([|d pre] & post & Hs).
      * left. rewrite app_nil in Hs. eauto.
      * right. rewrite app_cons in Hs. injection Hs as _ ->. eauto.
Qed.

(** [text.toLowerCase().includes(word)], read on the text itself. *)
Lemma includes_lower (s w : string) :
  includes (toLowerCase s) w = true ↔
  ∃ pre mid post, s = pre +:+ mid +:+ post ∧ toLowerCase mid = w.
Proof.
  rewrite includes_spec. split.
  - intros (a & b & Hs).
    apply toLowerCase_split in Hs as (pre & rest & -> & _ & Hrest).
    apply toLowerCase_split in Hrest as (mid & post & -> & Hmid & _).
    eauto.
  - intros (pre & mid & post & -> & <-).
    exists (toLowerCase pre), (toLowerCase post).
    by rewrite !toLowerCase_app.
Qed.

Lemma slash_backslashes_clean (s : string) :
  backslash ∉ chars (slash_backslashes s).
Proof.
  induction s as [|c s IH]; cbn [slash_backslashes chars].
  - apply not_elem_of_nil.
  - apply not_elem_of_cons. split; [|done]. by case_bool_decide.
Qed.

Lemma slash_backslashes_id (s : string) :
  backslash ∉ chars s → slash_backslashes s = s.
Proof.
  induction s as [|c s IH]; cbn [slash_backslashes chars]; [done|].
  intros [Hc Hs]%not_elem_of_cons. rewrite IH by done.
  by rewrite bool_decide_eq_false_2.
Qed.
End StrFacts.

(** ** Moderation *)

(** The words of the denylist are written in lower case, so folding the
    text alone is folding both. *)
Lemma BANNED_KEYWORDS_lower (word : string) :
  word ∈ BANNED_KEYWORDS → Str.toLowerCase word = word.
Proof.
  unfold BANNED_KEYWORDS. rewrite !elem_of_cons, elem_of_nil.
  intros H. repeat destruct H as [->|H]; done.
Qed.

Lemma checkContentSafety_false (s : string) :
  checkContentSafety (JString s) = false ↔ denylisted s.
Proof.
  unfold checkContentSafety, js_not. case_bool_decide as Hs.
  - split; [done|]. subst s. intros (term & Hin & pre & mid & post & Hs & Hmid).
    destruct pre; [|done]. destruct mid; [|done].
    rewrite (BANNED_KEYWORDS_lower _ Hin) in Hmid. subst term.
    revert Hin. unfold BANNED_KEYWORDS. rewrite !elem_of_cons, elem_of_nil.
    intros H. repeat destruct H as [?|H]; done.
  - rewrite negb_false_iff, existsb_exists. unfold denylisted, ci_occurs.
    split.
    + intros (word & Hin%list_elem_of_In & Hinc). exists word. split; [done|].
      rewrite (BANNED_KEYWORDS_lower _ Hin).
      by apply StrFacts.includes_lower.
    + intros (word & Hin & Hocc). exists word.
      split; [by apply list_elem_of_In|].
      apply StrFacts.includes_lower.
      by rewrite (BANNED_KEYWORDS_lower _ Hin) in Hocc.
Qed.

(** C2.  A text in which a term of the denylist occurs, in any case, is
    unsafe; a text free of them is safe; [null], an absent text and the
    empty string are safe. *)
Theorem checkContentSafety_spec :
  (∀ s, denylisted s → checkContentSafety (JString s) = false) ∧
  (∀ s, ¬ denylisted s → checkContentSafety (JString s) = true) ∧
  checkContentSafety JNull = true ∧
  checkContentSafety JUndefined = true ∧
  checkContentSafety (JString "") = true.
Proof.
  split_and!; try done.
  - intros s. apply checkContentSafety_false.
  - intros s Hs. apply not_false_iff_true.
    by rewrite checkContentSafety_false.
Qed.

Lemma checkContentSafety_spec_witness :
  checkContentSafety (JString "A SKILLED welder") = false
  ∧ checkContentSafety (JString "Bernoulli's principle") = true.
Proof.
  destruct checkContentSafety_spec as (Hflagged & Hsafe & _).
  split.
  - apply Hflagged. exists "kill". split.
    + unfold BANNED_KEYWORDS. rewrite !elem_of_cons. tauto.
    + by exists "A S", "KILL", "ED welder".
  - apply Hsafe. intros Hd%checkContentSafety_false. discriminate Hd.
Defined.

(** ** The upload route, step by step *)

Ltac unfold_monad :=
  unfold mbind, M_bind, mret, M_ret, try_catch, throw, gets, modify, effect.

Lemma post_upload_no_file os t_file t_note req w :
  file_part req = None →
  post_upload os t_file t_note req w
  = run (upload_callback t_note (body req) None) w.
Proof. intros Hf. unfold post_upload, upload_single. by rewrite Hf. Qed.

Lemma post_upload_pdf os t_file t_note req file w :
  file_part req = Some file →
  mimetype file = "application/pdf" →
  let p := blob_path os t_file file in
  post_upload os t_file t_note req w
  = run (upload_callback t_note (body req) (Some (req_file_of file p)))
        (stored p (content file) w).
Proof.
  intros Hf Hpdf p. unfold post_upload, upload_single, fileFilter.
  rewrite Hf, Hpdf. reflexivity.
Qed.

Lemma post_upload_not_pdf os t_file t_note req file w :
  file_part req = Some file →
  mimetype file ≠ "application/pdf" →
  post_upload os t_file t_note req w
  = ({| status := 500;
        payload := ErrorPage (Error "Only PDF files are allowed!") |}, w).
Proof.
  intros Hf Hpdf. unfold post_upload, upload_single, fileFilter.
  rewrite Hf, bool_decide_eq_false_2 by done. reflexivity.
Qed.

Lemma upload_callback_flagged_file now b f w data :
  flagged b = true →
  disk w !! path f = Some data →
  upload_callback now b (Some f) w
  = (inr (res_status_json 400
            (ErrorText "Content flagged by moderation system.")),
     set_disk (delete (path f) (disk w)) (log (FsUnlink (path f)) w)).
Proof.
  intros Hfl Hd. unfold upload_callback. fold (flagged b). rewrite Hfl.
  unfold fs_unlinkSync. unfold_monad. cbn. by rewrite Hd.
Qed.

Lemma upload_callback_flagged_no_file now b w :
  flagged b = true →
  upload_callback now b None w
  = (inr (res_status_json 400
            (ErrorText "Content flagged by moderation system.")), w).
Proof.
  intros Hfl. unfold upload_callback. fold (flagged b). by rewrite Hfl.
Qed.

Lemma upload_callback_safe_no_file now b w :
  flagged b = false →
  upload_callback now b None w
  = (inr (res_status_json 400 (ErrorText "No file uploaded.")), w).
Proof.
  intros Hfl. unfold upload_callback. fold (flagged b). by rewrite Hfl.
Qed.

(** With safe fields and a file, the answer is decided by [save]. *)
Lemma upload_callback_safe_file now b f w :
  flagged b = false →
  upload_callback now b (Some f) w
  = let n := note_of now b f in
    match missing_paths n with
    | [] =>
        if db_up w
        then (inr (res_status_json 201 (Message "Upload successful!")),
              set_notes (notes w ++ [n]) (log (DbInsert n) w))
        else (inr (res_status_json 500 (ErrorOf MongooseError)),
              log (DbInsert n) w)
    | paths => (inr (res_status_json 500 (ErrorOf (ValidationError paths))), w)
    end.
Proof.
  intros Hfl. unfold upload_callback. fold (flagged b). rewrite Hfl.
  fold (note_of now b f). cbv zeta. unfold Note_save.
  destruct (missing_paths (note_of now b f)); [|done].
  unfold_monad. cbn. by destruct (db_up w).
Qed.

Lemma flagged_true b :
  flagged b = true ↔
  checkContentSafety (body_topic b) = false
  ∨ checkContentSafety (body_description b) = false.
Proof. unfold flagged. rewrite orb_true_iff, !negb_true_iff. done. Qed.

Lemma flagged_false b :
  flagged b = false ↔
  checkContentSafety (body_topic b) = true
  ∧ checkContentSafety (body_description b) = true.
Proof. unfold flagged. rewrite orb_false_iff, !negb_false_iff. done. Qed.

(** ** The upload route *)




(** C4, as the specification orders the steps: a request without a file
    would always get the missing-file answer.  The callback tests
    moderation first, so a request without a file and with a flagged topic
    gets the moderation answer. *)
Lemma upload_missing_file_first_counterexample :
  let req := Sample.request (Sample.civil (JString "kill") JUndefined) None in
  file_part req = None
  ∧ (post_upload Posix 1700 1701 req Sample.fresh).1
    = res_status_json 400 (ErrorText "Content flagged by moderation system.")
  ∧ (post_upload Posix 1700 1701 req Sample.fresh).1
    ≠ res_status_json 400 (ErrorText "No file uploaded.").
Proof. by split_and!. Qed.

(** C4, amended.  A request without a file is answered 400 and touches
    neither store: with the missing-file error when topic and description
    pass moderation, with the moderation error when one of them does not,
    the moderation test being the first of the two. *)
Theorem upload_without_file os t_file t_note req w :
  file_part req = None →
  (checkContentSafety (body_topic (body req)) = true →
   checkContentSafety (body_description (body req)) = true →
   post_upload os t_file t_note req w
   = (res_status_json 400 (ErrorText "No file uploaded."), w))
  ∧ (checkContentSafety (body_topic (body req)) = false
     ∨ checkContentSafety (body_description (body req)) = false →
     post_upload os t_file t_note req w
     = (res_status_json 400
          (ErrorText "Content flagged by moderation system."), w)).
Proof.
  intros Hf. rewrite (post_upload_no_file _ _ _ _ _ Hf). unfold run. split.
  - intros Ht Hd.
    by rewrite upload_callback_safe_no_file by by apply flagged_false.
  - intros Hfl. by rewrite upload_callback_flagged_no_file by by apply flagged_true.
Qed.

Lemma upload_without_file_witness :
  post_upload Posix 1700 1701
    (Sample.request (Sample.civil (JString "Bernoulli") (JString "intro")) None)
    Sample.fresh
  = (res_status_json 400 (ErrorText "No file uploaded."), Sample.fresh)
  ∧ post_upload Posix 1700 1701
      (Sample.request (Sample.civil (JString "Bernoulli") (JString "gore")) None)
      Sample.fresh
    = (res_status_json 400
         (ErrorText "Content flagged by moderation system."), Sample.fresh).
Proof.
  split.
  - exact (proj1 (upload_without_file Posix 1700 1701
                    (Sample.request
                       (Sample.civil (JString "Bernoulli") (JString "intro"))
                       None)
                    Sample.fresh eq_refl) eq_refl eq_refl).
  - exact (proj2 (upload_without_file Posix 1700 1701
                    (Sample.request
                       (Sample.civil (JString "Bernoulli") (JString "gore"))
                       None)
                    Sample.fresh eq_refl) (or_intror eq_refl)).
Defined.

(** C5.  A file that is not a PDF is turned away by the file filter before
    the callback runs: nothing is written and nothing is saved.  The error
    of the filter goes to Express's default handler, so the answer has
    status 500, which is not a 4xx status. *)
Theorem upload_png_answer :
  let req := Sample.request
               (Sample.civil (JString "Bernoulli") (JString "intro"))
               (Some Sample.png) in
  post_upload Posix 1700 1701 req Sample.fresh
  = ({| status := 500;
        payload := ErrorPage (Error "Only PDF files are allowed!") |},
     Sample.fresh)
  ∧ ¬ (400 ≤ status (post_upload Posix 1700 1701 req Sample.fresh).1 < 500).
Proof.
  intros req.
  assert (post_upload Posix 1700 1701 req Sample.fresh
          = ({| status := 500;
                payload := ErrorPage (Error "Only PDF files are allowed!") |},
             Sample.fresh)) as Hrun by reflexivity.
  rewrite Hrun. split; [reflexivity|]. cbn [fst status]. lia.
Qed.

Lemma blob_path_slashed_nonempty os now file :
  check_required (JString (Str.slash_backslashes (blob_path os now file)))
  = true.
Proof. by destruct os. Qed.

Lemma missing_paths_nil n :
  check_required (branch n) = true →
  check_required (subject n) = true →
  check_required (topic n) = true →
  check_required (filePath n) = true →
  missing_paths n = [].
Proof.
  intros Hb Hs Ht Hf. unfold missing_paths, required_paths.
  rewrite !filter_cons. cbn [snd]. by rewrite Hb, Hs, Ht, Hf.
Qed.

(** C6, as stated: every PDF upload with safe topic and description would
    save one document and be answered 201.  The schema requires [topic]
    (and [branch], [subject]); an absent topic is safe for moderation,
    [save] rejects the document, the answer is 500 and nothing is saved. *)
Lemma upload_safe_pdf_counterexample :
  let file := Sample.pdf "notes.pdf" in
  let req := Sample.request (Sample.civil JUndefined (JString "intro"))
               (Some file) in
  file_part req = Some file
  ∧ mimetype file = "application/pdf"
  ∧ checkContentSafety (body_topic (body req)) = true
  ∧ checkContentSafety (body_description (body req)) = true
  ∧ (post_upload Posix 1700 1701 req Sample.fresh).1
    = res_status_json 500 (ErrorOf (ValidationError ["topic"]))
  ∧ notes (post_upload Posix 1700 1701 req Sample.fresh).2 = [].
Proof. by split_and!. Qed.

(** C6, amended.  A PDF upload with safe topic and description whose
    [branch], [subject] and [topic] are non-empty strings, on a store that
    takes the write, saves exactly one document and is answered 201 with
    the confirmation.  The document's [filePath] is the blob's path with
    every backslash turned into a slash, so it holds none, and its
    [originalName] is the name the file was sent under. *)
Theorem upload_accepted os t_file t_note req file w :
  file_part req = Some file →
  mimetype file = "application/pdf" →
  checkContentSafety (body_topic (body req)) = true →
  checkContentSafety (body_description (body req)) = true →
  check_required (body_branch (body req)) = true →
  check_required (body_subject (body req)) = true →
  check_required (body_topic (body req)) = true →
  db_up w = true →
  let p := blob_path os t_file file in
  let n := {| branch := body_branch (body req);
              subject := body_subject (body req);
              topic := body_topic (body req);
              description := body_description (body req);
              filePath := JString (Str.slash_backslashes p);
              originalName := JString (originalname file);
              uploadDate := t_note |} in
  post_upload os t_file t_note req w
  = (res_status_json 201 (Message "Upload successful!"),
     {| notes := notes w ++ [n]; db_up := true;
        disk := <[p := content file]> (disk w);
        trace := trace w ++ [FsWrite p; DbInsert n] |})
  ∧ Str.backslash ∉ Str.chars (Str.slash_backslashes p).
Proof.
  intros Hf Hpdf Ht Hd Hrb Hrs Hrt Hup p n.
  split; [|apply StrFacts.slash_backslashes_clean].
  rewrite (post_upload_pdf _ _ _ _ _ _ Hf Hpdf). fold p. unfold run.
  rewrite upload_callback_safe_file by by apply flagged_false.
  change (note_of t_note (body req) (req_file_of file p)) with n. cbv zeta.
  rewrite missing_paths_nil by
    (done || apply blob_path_slashed_nonempty).
  unfold stored, set_disk, set_notes, log. cbn. rewrite Hup.
  by rewrite <- (assoc_L (++)).
Qed.

Lemma upload_accepted_witness :
  let file := Sample.pdf "week 1   notes.pdf" in
  let req := Sample.request
               (Sample.fields (JString "Civil") (JString "Fluid Mechanics")
                  (JString "Bernoulli") (JString "intro"))
               (Some file) in
  let n := {| branch := JString "Civil";
              subject := JString "Fluid Mechanics";
              topic := JString "Bernoulli";
              description := JString "intro";
              filePath := JString "uploads/1700-week-1-notes.pdf";
              originalName := JString "week 1   notes.pdf";
              uploadDate := 1701 |} in
  post_upload Win32 1700 1701 req Sample.fresh
  = (res_status_json 201 (Message "Upload successful!"),
     {| notes := [n]; db_up := true;
        disk := {[ "uploads" +:+ String Str.backslash "1700-week-1-notes.pdf"
                   := "%PDF-1.7" ]};
        trace := [FsWrite ("uploads" +:+ String Str.backslash
                                           "1700-week-1-notes.pdf");
                  DbInsert n] |}).
Proof.
  intros file req n.
  exact (proj1 (upload_accepted Win32 1700 1701 req file Sample.fresh
                  eq_refl eq_refl eq_refl eq_refl eq_refl eq_refl eq_refl
                  eq_refl)).
Defined.

(** C10.  Moderation reads [topic] and [description] only.  A PDF upload
    whose topic and description are safe is never answered with the
    moderation error, whatever [subject] and [branch] hold, and the blob
    stays on disk. *)
Theorem moderation_skips_subject_and_branch os t_file t_note req file w :
  file_part req = Some file →
  mimetype file = "application/pdf" →
  checkContentSafety (body_topic (body req)) = true →
  checkContentSafety (body_description (body req)) = true →
  let answer := post_upload os t_file t_note req w in
  status answer.1 ≠ 400
  ∧ payload answer.1 ≠ ErrorText "Content flagged by moderation system."
  ∧ disk answer.2 !! blob_path os t_file file = Some (content file)
  ∧ FsUnlink (blob_path os t_file file) ∉ drop (length (trace w)) (trace answer.2).
Proof.
  intros Hf Hpdf Ht Hd answer. subst answer.
  rewrite (post_upload_pdf _ _ _ _ _ _ Hf Hpdf). unfold run.
  rewrite upload_callback_safe_file by by apply flagged_false.
  cbv zeta.
  assert (∀ l : list Effect, drop (length (trace w)) (trace w ++ l) = l) as Hdrop.
  { intros l. by rewrite drop_app_length. }
  destruct (missing_paths _); [destruct (db_up _)|]; cbn;
    rewrite ?lookup_insert_eq, <- ?(assoc_L (++)), Hdrop;
    split_and!; try done;
    intros Hin; repeat (apply elem_of_cons in Hin as [Hin|Hin]; [done|]);
    by apply elem_of_nil in Hin.
Qed.

Lemma moderation_skips_subject_and_branch_witness :
  let file := Sample.pdf "notes.pdf" in
  let req := Sample.request
               (Sample.fields (JString "Blood sciences") (JString "Kill chain")
                  (JString "Bernoulli") (JString "intro"))
               (Some file) in
  checkContentSafety (body_subject (body req)) = false
  ∧ checkContentSafety (body_branch (body req)) = false
  ∧ status (post_upload Posix 1700 1701 req Sample.fresh).1 ≠ 400.
Proof.
  intros file req. split_and!; [reflexivity..|].
  exact (proj1 (moderation_skips_subject_and_branch Posix 1700 1701 req file
                  Sample.fresh eq_refl eq_refl eq_refl eq_refl)).
Defined.

(** ** The Note store *)

Lemma insert_desc_perm n l : insert_desc n l ≡ₚ n :: l.
Proof.
  induction l as [|m l IH]; cbn [insert_desc]; [done|].
  case_match; [done|]. by rewrite IH, Permutation_swap.
Qed.

Lemma sort_desc_perm l : sort_desc l ≡ₚ l.
Proof.
  induction l as [|n l IH]; [done|].
  unfold sort_desc in *. cbn [foldr]. by rewrite insert_desc_perm, IH.
Qed.

Lemma insert_desc_sorted n l :
  StronglySorted not_older l → StronglySorted not_older (insert_desc n l).
Proof.
  induction 1 as [|m l Hl IH Hm]; cbn [insert_desc].
  - by repeat constructor.
  - destruct (Z.leb_spec (uploadDate m) (uploadDate n)) as [Hle|Hlt].
    + constructor; [by constructor|]. constructor; [done|].
      eapply Forall_impl; [exact Hm|]. unfold not_older. intros; lia.
    + constructor; [done|]. rewrite insert_desc_perm.
      constructor; [unfold not_older; lia|done].
Qed.

Lemma sort_desc_sorted l : StronglySorted not_older (sort_desc l).
Proof.
  induction l as [|n l IH]; [constructor|].
  unfold sort_desc in *. cbn [foldr]. by apply insert_desc_sorted.
Qed.

Section store_facts.
Context `{TextIndex}.

Lemma Note_find_run f by_date limit w :
  Note_find f by_date limit w
  = (if db_up w
     then inr (take limit (if by_date then sort_desc (select f (notes w))
                           else select f (notes w)))
     else inl MongooseError,
     log (DbFind f) w).
Proof. unfold Note_find. unfold_monad. cbn. by destruct (db_up w). Qed.

Lemma get_search_run s branch w :
  s ≠ "" →
  get_search (JString s) branch w
  = run (try_catch
           (internalResults ← Note_find (Text s) false 10;
            mret (res_json (SearchResult internalResults
              (if (length internalResults <? 3)%nat
               then Some
                 {| source := "External Knowledge Base";
                    title := "Concept Summary: " +:+ s;
                    summary :=
                      "We found limited local PDFs, but here is what you need to know about "
                      +:+ s
                      +:+ ". This topic usually covers foundational principles in "
                      +:+ js_to_string (js_or branch (JString "engineering"))
                      +:+ ". Important questions often involve derivations and practical applications." |}
               else None))))
           (λ error, mret (res_status_json 500 (ErrorText "Search failed"))))
        w.
Proof.
  intros Hs. unfold get_search, search_callback, js_not.
  by rewrite bool_decide_eq_false_2.
Qed.
End store_facts.

(** ** The search route *)

(** C7.  Without [q], or with an empty [q], the answer is
    [{ internal: [], external: null }] and the world is returned as it
    was: its trace has no new access, so the store is not queried. *)
Theorem search_without_query `{TextIndex} q branch w :
  q = JUndefined ∨ q = JString "" →
  get_search q branch w = (res_json (SearchResult [] None), w)
  ∧ trace (get_search q branch w).2 = trace w.
Proof. by intros [-> | ->]. Qed.

Lemma search_without_query_witness :
  get_search (H := Sample.substring_index) (JString "") (JString "Civil")
    (Sample.world_of [Sample.note "Thermodynamics" 5])
  = (res_json (SearchResult [] None),
     Sample.world_of [Sample.note "Thermodynamics" 5]).
Proof.
  exact (proj1 (search_without_query (H := Sample.substring_index)
                  (JString "") (JString "Civil")
                  (Sample.world_of [Sample.note "Thermodynamics" 5])
                  (or_intror eq_refl))).
Defined.

(** C8.  With a non-empty query the route asks the store once.  When the
    store answers, the internal results are the first ten documents the
    text query selects, at most ten of them; when it does not answer, the
    route answers 500. *)
Theorem search_internal_capped `{TextIndex} s branch w :
  s ≠ "" →
  (db_up w = true
   ∧ ∃ internal external,
       get_search (JString s) branch w
       = (res_json (SearchResult internal external), log (DbFind (Text s)) w)
       ∧ internal = take 10 (text_search s (notes w))
       ∧ (length internal ≤ 10)%nat)
  ∨ (db_up w = false
     ∧ get_search (JString s) branch w
       = (res_status_json 500 (ErrorText "Search failed"),
          log (DbFind (Text s)) w)).
Proof.
  intros Hs. rewrite (get_search_run _ _ _ Hs).
  unfold run, try_catch, mbind, M_bind. rewrite Note_find_run.
  destruct (db_up w); [left|right]; split; try done.
  eexists _, _. split_and!; [reflexivity..|].
  rewrite length_take. lia.
Qed.

Lemma search_internal_capped_witness :
  let w := Sample.world_of
             (map (Sample.note "Thermodynamics") (seqZ 1 12)) in
  ∃ internal external,
    get_search (H := Sample.substring_index) (JString "thermo") JUndefined w
    = (res_json (SearchResult internal external),
       log (DbFind (Text "thermo")) w)
    ∧ length internal = 10%nat.
Proof.
  intros w.
  destruct (search_internal_capped (H := Sample.substring_index)
              "thermo" JUndefined w ltac:(discriminate))
    as [(_ & internal & external & Hrun & Hint & _) | (Hdown & _)];
    [|discriminate Hdown].
  exists internal, external. split; [exact Hrun|].
  rewrite Hint. reflexivity.
Defined.

(** C1.  With a non-empty query [s], when the store's query returns
    [results]: with fewer than three of them, [external] is the fallback
    record, whose source is "External Knowledge Base", whose title is
    "Concept Summary: " followed by [s], and whose summary is the template
    around [s] and the branch hint, "engineering" when [branch] is absent
    and the branch when it is given; with three or more, [external] is
    null. *)
Theorem search_external_fallback `{TextIndex} s branch w results w' :
  s ≠ "" →
  Note_find (Text s) false 10 w = (inr results, w') →
  ∃ external,
    get_search (JString s) branch w
    = (res_json (SearchResult results external), w')
    ∧ ((length results < 3)%nat →
       ∃ hint,
         external = Some
           {| source := "External Knowledge Base";
              title := "Concept Summary: " +:+ s;
              summary :=
                "We found limited local PDFs, but here is what you need to know about "
                +:+ s
                +:+ ". This topic usually covers foundational principles in "
                +:+ hint
                +:+ ". Important questions often involve derivations and practical applications." |}
         ∧ (branch = JUndefined → hint = "engineering")
         ∧ (∀ b, branch = JString b → b ≠ "" → hint = b))
    ∧ ((3 ≤ length results)%nat → external = None).
Proof.
  intros Hs Hfind. rewrite (get_search_run _ _ _ Hs).
  unfold run, try_catch, mbind, M_bind. rewrite Hfind.
  eexists. split; [reflexivity|]. split.
  - intros Hlt. apply Nat.ltb_lt in Hlt. rewrite Hlt.
    eexists. split; [reflexivity|]. split.
    + by intros ->.
    + intros b -> Hb. unfold js_or, js_not.
      by rewrite bool_decide_eq_false_2.
  - intros Hge. by apply Nat.ltb_ge in Hge as ->.
Qed.

Lemma search_external_fallback_witness :
  let stored := [Sample.note "Thermodynamics I" 5;
                 Sample.note "Statics" 6;
                 Sample.note "Applied thermodynamics" 7] in
  let w := Sample.world_of stored in
  get_search (H := Sample.substring_index) (JString "thermodynamics")
    JUndefined w
  = (res_json
       (SearchResult
          [Sample.note "Thermodynamics I" 5;
           Sample.note "Applied thermodynamics" 7]
          (Some
             {| source := "External Knowledge Base";
                title := "Concept Summary: thermodynamics";
                summary :=
                  "We found limited local PDFs, but here is what you need to know about thermodynamics. This topic usually covers foundational principles in engineering. Important questions often involve derivations and practical applications." |})),
     log (DbFind (Text "thermodynamics")) w).
Proof.
  intros stored w.
  destruct (search_external_fallback (H := Sample.substring_index)
              "thermodynamics" JUndefined w
              [Sample.note "Thermodynamics I" 5;
               Sample.note "Applied thermodynamics" 7]
              (log (DbFind (Text "thermodynamics")) w)
              ltac:(discriminate) eq_refl)
    as (external & Hrun & Hfew & _).
  destruct (Hfew ltac:(cbn; lia)) as (hint & -> & Hhint & _).
  rewrite (Hhint eq_refl) in Hrun. exact Hrun.
Defined.

(** ** The listing route *)

(** C9, as stated: the listing would be strictly descending by upload
    date.  Two uploads served within the same millisecond get the same
    [uploadDate]; the listing returns both, and neither is strictly more
    recent than the other. *)
Lemma listing_strict_counterexample :
  ∃ a b,
    (get_notes (H := Sample.substring_index) Sample.same_millisecond).1
    = res_json (NoteList [a; b])
    ∧ uploadDate a = uploadDate b
    ∧ ¬ StronglySorted newer [a; b].
Proof.
  eexists _, _. split_and!; [reflexivity..|].
  intros Hs. apply StronglySorted_inv in Hs as [_ Hab].
  apply Forall_inv in Hab. unfold newer in Hab. cbn in Hab. lia.
Qed.

(** C9, amended.  The listing asks the store once.  When the store
    answers, the route returns at most twenty documents, most recent
    first, in descending order of [uploadDate] in which documents of equal
    date may follow one another; they are the most recent of the
    collection: with the documents left out they make up the collection,
    and none left out is more recent than one returned.  When the store
    does not answer, the route answers 500. *)
Theorem listing_recent_first `{TextIndex} w :
  (db_up w = true
   ∧ ∃ l rest,
       get_notes w = (res_json (NoteList l), log (DbFind All) w)
       ∧ (length l ≤ 20)%nat
       ∧ StronglySorted not_older l
       ∧ l ++ rest ≡ₚ notes w
       ∧ ∀ a b, a ∈ l → b ∈ rest → not_older a b)
  ∨ (db_up w = false
     ∧ get_notes w
       = (res_status_json 500 (ErrorOf MongooseError), log (DbFind All) w)).
Proof.
  unfold get_notes, run, try_catch, mbind, M_bind. rewrite Note_find_run.
  destruct (db_up w); [left|right]; split; try done.
  exists (take 20 (sort_desc (notes w))), (drop 20 (sort_desc (notes w))).
  pose proof (sort_desc_sorted (notes w)) as Hsorted.
  rewrite <- (take_drop 20 (sort_desc (notes w))) in Hsorted at 1.
  split_and!.
  - reflexivity.
  - rewrite length_take. lia.
  - by apply StronglySorted_app_1_l in Hsorted.
  - by rewrite take_drop, sort_desc_perm.
  - intros a b. by apply StronglySorted_app_1_elem_of.
Qed.


(** * Further properties of the server *)

(** ** More on strings *)

Module StrMore.
Import Str.

Lemma app_assoc (a b c : string) : (a +:+ b) +:+ c = a +:+ b +:+ c.
Proof.
  induction a as [|x a IH]; [done|].
  by rewrite !StrFacts.app_cons, IH.
Qed.

Lemma length_app (a b : string) :
  String.length (a +:+ b) = (String.length a + String.length b)%nat.
Proof.
  induction a as [|x a IH]; [done|].
  rewrite StrFacts.app_cons. cbn [String.length]. by rewrite IH.
Qed.

(** Two strings that end alike and have equal length before the end. *)
Lemma app_inv_same_length (a b r r' : string) :
  a +:+ r = b +:+ r' → String.length a = String.length b → a = b ∧ r = r'.
Proof.
  revert b. induction a as [|x a IH]; intros [|y b] Heq Hlen; try done.
  rewrite !StrFacts.app_cons in Heq. injection Heq as -> Heq.
  injection Hlen as Hlen. by destruct (IH _ Heq Hlen) as [-> ->].
Qed.

Lemma app_inv_tail (a b r : string) : a +:+ r = b +:+ r → a = b.
Proof.
  intros Heq. apply (app_inv_same_length a b r r Heq).
  apply (f_equal String.length) in Heq. rewrite !length_app in Heq. lia.
Qed.

Lemma chars_app (a b : string) : chars (a +:+ b) = chars a ++ chars b.
Proof.
  induction a as [|x a IH]; [done|].
  rewrite StrFacts.app_cons. cbn [chars]. by rewrite IH.
Qed.

Lemma toLowerCase_eq_empty (s : string) : toLowerCase s = "" ↔ s = "".
Proof. by destruct s. Qed.

Lemma dash_spaces_go_no_space (in_run : bool) (s : string) :
  Forall (λ c, Ascii.is_space c = false) (chars (dash_spaces_go in_run s)).
Proof.
  revert in_run. induction s as [|c s IH]; intros in_run; [constructor|].
  cbn [dash_spaces_go]. destruct (Ascii.is_space c) eqn:Hc.
  - destruct in_run; [apply IH|]. cbn [chars]. constructor; [done|apply IH].
  - cbn [chars]. constructor; [done|apply IH].
Qed.

Lemma dash_spaces_go_id (in_run : bool) (s : string) :
  Forall (λ c, Ascii.is_space c = false) (chars s) →
  dash_spaces_go in_run s = s.
Proof.
  revert in_run. induction s as [|c s IH]; intros in_run Hs; [done|].
  cbn [chars] in Hs. apply Forall_cons in Hs as [Hc Hs].
  cbn [dash_spaces_go]. by rewrite Hc, IH.
Qed.

(** The digits of a number hold no white space. *)
Lemma pretty_N_go_no_space (x : N) (s : string) :
  Forall (λ c, Ascii.is_space c = false) (chars s) →
  Forall (λ c, Ascii.is_space c = false) (chars (pretty_N_go x s)).
Proof.
  revert s. induction (N.lt_wf_0 x) as [x _ IH]; intros s Hs.
  assert (x = 0 ∨ 0 < x)%N as [->|Hx] by lia.
  - by rewrite pretty_N_go_0.
  - rewrite pretty_N_go_step by done. apply IH.
    + by apply N.div_lt.
    + cbn [chars]. constructor; [|done].
      unfold pretty_N_char. by repeat case_match.
Qed.

Lemma pretty_Z_no_space (x : Z) :
  Forall (λ c, Ascii.is_space c = false) (chars (pretty x)).
Proof.
  assert (∀ n : N, Forall (λ c, Ascii.is_space c = false) (chars (pretty n)))
    as HN.
  { intros n. unfold pretty, pretty_N. case_decide.
    - by repeat constructor.
    - apply pretty_N_go_no_space. constructor. }
  destruct x as [|q|q]; unfold pretty, pretty_Z.
  - by repeat constructor.
  - apply HN.
  - rewrite chars_app. apply Forall_app. split; [by repeat constructor|apply HN].
Qed.

End StrMore.

(** ** More on moderation *)

(** X1.  Moderation does not see case: two texts that are equal once in
    lower case get the same verdict. *)
Theorem moderation_ignores_case (s t : string) :
  Str.toLowerCase s = Str.toLowerCase t →
  checkContentSafety (JString s) = checkContentSafety (JString t).
Proof.
  intros Hst. unfold checkContentSafety, js_not.
  destruct (decide (s = "")) as [->|Hs].
  - by destruct t.
  - assert (t ≠ "") as Ht.
    { intros ->. by apply (proj1 (StrMore.toLowerCase_eq_empty s)) in Hst. }
    rewrite !bool_decide_eq_false_2 by done. cbv zeta. by rewrite Hst.
Qed.

Lemma moderation_ignores_case_witness :
  checkContentSafety (JString "Blood Flow")
  = checkContentSafety (JString "bLOOD fLOW").
Proof. exact (moderation_ignores_case "Blood Flow" "bLOOD fLOW" eq_refl). Defined.

(** X2.  Moderation knows no word boundary: a text that holds a flagged
    text anywhere inside it is flagged. *)
Theorem moderation_flags_any_extension (pre s post : string) :
  checkContentSafety (JString s) = false →
  checkContentSafety (JString (pre +:+ s +:+ post)) = false.
Proof.
  rewrite !checkContentSafety_false.
  intros (term & Hin & a & mid & b & -> & Hmid).
  exists term. split; [done|].
  exists (pre +:+ a), mid, (b +:+ post). split; [|done].
  by rewrite !StrMore.app_assoc.
Qed.

Lemma moderation_flags_any_extension_witness :
  checkContentSafety (JString ("Key s" +:+ "kill" +:+ "s for welders")) = false.
Proof.
  exact (moderation_flags_any_extension "Key s" "kill" "s for welders" eq_refl).
Defined.

(** ** The names multer gives to blobs *)

(** X3.  The path of a stored blob holds no white-space character,
    whatever the name the file was sent under. *)
Theorem blob_path_no_space os now file :
  Forall (λ c, Ascii.is_space c = false) (Str.chars (blob_path os now file)).
Proof.
  assert (Forall (λ c, Ascii.is_space c = false)
            (Str.chars (storage_filename now file))) as Hname.
  { unfold storage_filename. rewrite !StrMore.chars_app, !Forall_app.
    split_and!.
    - apply StrMore.pretty_Z_no_space.
    - by repeat constructor.
    - apply StrMore.dash_spaces_go_no_space. }
  unfold blob_path, path_join_uploads.
  destruct os; rewrite StrMore.chars_app; apply Forall_app; split;
    by repeat constructor.
Qed.

(** X4.  A name without white space is kept as it is. *)
Theorem dash_spaces_keeps_plain_names (s : string) :
  Forall (λ c, Ascii.is_space c = false) (Str.chars s) →
  Str.dash_spaces s = s.
Proof. apply StrMore.dash_spaces_go_id. Qed.

Lemma dash_spaces_keeps_plain_names_witness :
  Str.dash_spaces "lecture-07_final.pdf" = "lecture-07_final.pdf".
Proof.
  apply (dash_spaces_keeps_plain_names "lecture-07_final.pdf").
  by repeat constructor.
Defined.

(** X5.  The time stamp keeps uploads of one file apart: received at two
    different times, the same file gets two different paths. *)
Theorem blob_path_time_inj os t1 t2 file :
  t1 ≠ t2 → blob_path os t1 file ≠ blob_path os t2 file.
Proof.
  unfold blob_path, path_join_uploads, storage_filename. intros Ht Heq.
  assert (pretty t1 +:+ "-" +:+ Str.dash_spaces (originalname file)
          = pretty t2 +:+ "-" +:+ Str.dash_spaces (originalname file)) as Hn.
  { destruct os; apply (inj (String.app _)) in Heq; [done|].
    by injection Heq. }
  apply StrMore.app_inv_tail in Hn. by apply (inj pretty) in Hn.
Qed.

Lemma blob_path_time_inj_witness :
  blob_path Win32 1700 (Sample.pdf "week 1.pdf")
  ≠ blob_path Win32 1701 (Sample.pdf "week 1.pdf").
Proof.
  apply (blob_path_time_inj Win32 1700 1701 (Sample.pdf "week 1.pdf")). lia.
Defined.

(** ** More on the upload route *)

(** The route on a request that carries a PDF, case by case. *)
Lemma post_upload_pdf_run os t_file t_note req file w :
  file_part req = Some file →
  mimetype file = "application/pdf" →
  let p := blob_path os t_file file in
  let w1 := stored p (content file) w in
  let n := note_of t_note (body req) (req_file_of file p) in
  post_upload os t_file t_note req w
  = if flagged (body req)
    then (res_status_json 400
            (ErrorText "Content flagged by moderation system."),
          set_disk (delete p (disk w1)) (log (FsUnlink p) w1))
    else
      match missing_paths n with
      | [] =>
          if db_up w
          then (res_status_json 201 (Message "Upload successful!"),
                set_notes (notes w ++ [n]) (log (DbInsert n) w1))
          else (res_status_json 500 (ErrorOf MongooseError),
                log (DbInsert n) w1)
      | paths =>
          (res_status_json 500 (ErrorOf (ValidationError paths)), w1)
      end.
Proof.
  intros Hf Hpdf p w1 n.
  rewrite (post_upload_pdf _ _ _ _ _ _ Hf Hpdf). fold p w1. unfold run.
  destruct (flagged (body req)) eqn:Hfl.
  - by rewrite (upload_callback_flagged_file _ _ _ _ (content file) Hfl)
      by apply lookup_insert_eq.
  - rewrite upload_callback_safe_file by done. fold n. cbv zeta.
    destruct (missing_paths n); [|done].
    change (db_up w1) with (db_up w). by destruct (db_up w).
Qed.

Lemma post_upload_no_file_run os t_file t_note req w :
  file_part req = None →
  post_upload os t_file t_note req w
  = (res_status_json 400
       (ErrorText (if flagged (body req)
                   then "Content flagged by moderation system."
                   else "No file uploaded.")), w).
Proof.
  intros Hf. rewrite (post_upload_no_file _ _ _ _ _ Hf). unfold run.
  destruct (flagged (body req)) eqn:Hfl.
  - by rewrite upload_callback_flagged_no_file.
  - by rewrite upload_callback_safe_no_file.
Qed.

Lemma missing_paths_filePath now b file p :
  missing_paths (note_of now b (req_file_of file p))
  = (if check_required (body_branch b) then [] else ["branch"])
    ++ (if check_required (body_subject b) then [] else ["subject"])
    ++ (if check_required (body_topic b) then [] else ["topic"])
    ++ (if check_required (JString (Str.slash_backslashes p))
        then [] else ["filePath"]).
Proof.
  unfold missing_paths, required_paths. rewrite !filter_cons, filter_nil.
  cbn [snd note_of new_Note branch subject topic filePath req_file_of path].
  destruct (check_required (body_branch b)),
    (check_required (body_subject b)), (check_required (body_topic b)),
    (check_required (JString (Str.slash_backslashes p))); reflexivity.
Qed.

Lemma acceptable_missing_paths os t_file t_note req file :
  acceptable req file →
  missing_paths (note_of t_note (body req)
                   (req_file_of file (blob_path os t_file file))) = [].
Proof.
  intros (_ & _ & _ & Hb & Hs & Ht).
  rewrite missing_paths_filePath, Hb, Hs, Ht.
  by rewrite blob_path_slashed_nonempty.
Qed.

(** An acceptable request on a store that answers. *)
Lemma post_upload_acceptable os t_file t_note req file w :
  acceptable req file →
  db_up w = true →
  let p := blob_path os t_file file in
  let n := note_of t_note (body req) (req_file_of file p) in
  post_upload os t_file t_note req w
  = (res_status_json 201 (Message "Upload successful!"),
     set_notes (notes w ++ [n]) (log (DbInsert n) (stored p (content file) w))).
Proof.
  intros Hacc Hup p n.
  pose proof (acceptable_missing_paths os t_file t_note _ _ Hacc) as Hmiss.
  destruct Hacc as (Hf & Hpdf & Hfl & _).
  rewrite (post_upload_pdf_run _ _ _ _ _ _ Hf Hpdf), Hfl.
  fold p n in Hmiss |- *. by rewrite Hmiss, Hup.
Qed.

(** X6.  Two files whose names agree once white space is dashed, received
    within the same millisecond, get the same path.  When both uploads are
    accepted, the second blob replaces the first, and the two documents
    point to the one file that is left. *)
Theorem same_millisecond_overwrites os t t1 t2 req1 req2 file1 file2 w :
  acceptable req1 file1 →
  acceptable req2 file2 →
  db_up w = true →
  Str.dash_spaces (originalname file1) = Str.dash_spaces (originalname file2) →
  let p := blob_path os t file1 in
  let w2 := (post_upload os t t2 req2 (post_upload os t t1 req1 w).2).2 in
  ∃ n1 n2,
    notes w2 = notes w ++ [n1; n2]
    ∧ filePath n1 = JString (Str.slash_backslashes p)
    ∧ filePath n2 = JString (Str.slash_backslashes p)
    ∧ disk w2 = <[p := content file2]> (disk w).
Proof.
  intros Hacc1 Hacc2 Hup Hname p w2. subst w2.
  assert (blob_path os t file2 = p) as Hp.
  { unfold p, blob_path, storage_filename. by rewrite Hname. }
  rewrite (post_upload_acceptable _ _ _ _ _ _ Hacc1 Hup). cbn [snd].
  rewrite (post_upload_acceptable _ _ _ _ _ _ Hacc2) by done.
  rewrite Hp. fold p.
  exists (note_of t1 (body req1) (req_file_of file1 p)),
         (note_of t2 (body req2) (req_file_of file2 p)).
  cbn. split_and!; [|reflexivity..|].
  - by rewrite <- (assoc_L (++)).
  - apply insert_insert_eq.
Qed.

Lemma same_millisecond_overwrites_witness :
  let req1 := Sample.request
                (Sample.civil (JString "Bernoulli") JUndefined)
                (Some (Sample.pdf "week 1.pdf")) in
  let req2 := Sample.request
                (Sample.civil (JString "Venturi") JUndefined)
                (Some {| originalname := "week-1.pdf";
                         mimetype := "application/pdf";
                         content := "%PDF-1.4 other" |}) in
  disk (post_upload Posix 1700 1702 req2
          (post_upload Posix 1700 1701 req1 Sample.fresh).2).2
  = {[ "uploads/1700-week-1.pdf" := "%PDF-1.4 other" ]}.
Proof.
  intros req1 req2.
  destruct (same_millisecond_overwrites Posix 1700 1701 1702 req1 req2
              (Sample.pdf "week 1.pdf")
              {| originalname := "week-1.pdf"; mimetype := "application/pdf";
                 content := "%PDF-1.4 other" |}
              Sample.fresh)
    as (n1 & n2 & _ & _ & _ & Hdisk); try by repeat split.
Defined.

(** X7.  What one upload can do.  The answer has status 201, 400 or 500.
    The collection is left as it was unless the answer is 201, and then
    exactly one document is added at its end: no document is changed or
    removed.  The accesses are none, or one write of a blob followed by
    nothing, by the unlink of that blob, or by one insert. *)
Theorem upload_effects os t_file t_note req w :
  let answer := post_upload os t_file t_note req w in
  db_up answer.2 = db_up w
  ∧ status answer.1 ∈ [201; 400; 500]
  ∧ (status answer.1 = 201 → ∃ n, notes answer.2 = notes w ++ [n])
  ∧ (status answer.1 ≠ 201 → notes answer.2 = notes w)
  ∧ ∃ es, trace answer.2 = trace w ++ es
          ∧ (es = []
             ∨ ∃ p, es = [FsWrite p]
                    ∨ es = [FsWrite p; FsUnlink p]
                    ∨ ∃ n, es = [FsWrite p; DbInsert n]).
Proof.
  intros answer. subst answer.
  destruct (file_part req) as [file|] eqn:Hf.
  - destruct (decide (mimetype file = "application/pdf")) as [Hpdf|Hpdf].
    + rewrite (post_upload_pdf_run _ _ _ _ _ _ Hf Hpdf).
      destruct (flagged (body req)); [|destruct (missing_paths _);
        [destruct (db_up w) eqn:Hup|]]; cbn; rewrite ?Hup;
        (split_and!; [done|set_solver by lia|eauto; done|eauto; done|]);
        rewrite <- ?(assoc_L (++)); eexists; (split; [reflexivity|]);
        right; eexists; eauto.
    + rewrite (post_upload_not_pdf _ _ _ _ _ _ Hf Hpdf). cbn.
      split_and!; [done|set_solver by lia|done..|].
      exists []. by rewrite (right_id_L [] (++)); auto.
  - rewrite (post_upload_no_file_run _ _ _ _ _ Hf). cbn.
    split_and!; [done|set_solver by lia|done..|].
    exists []. by rewrite (right_id_L [] (++)); auto.
Qed.

(** X8.  A PDF upload that passes moderation but lacks a field the schema
    requires ([branch], [subject] or [topic] absent or empty): [save]
    rejects the document before the store is contacted, the answer is 500
    with the validation error naming the missing paths, no document is
    added, and the blob multer wrote stays on disk: only moderation rolls
    a blob back. *)
Theorem upload_invalid_document os t_file t_note req file w :
  file_part req = Some file →
  mimetype file = "application/pdf" →
  checkContentSafety (body_topic (body req)) = true →
  checkContentSafety (body_description (body req)) = true →
  check_required (body_branch (body req)) = false
  ∨ check_required (body_subject (body req)) = false
  ∨ check_required (body_topic (body req)) = false →
  let p := blob_path os t_file file in
  let paths :=
    (if check_required (body_branch (body req)) then [] else ["branch"])
    ++ (if check_required (body_subject (body req)) then [] else ["subject"])
    ++ (if check_required (body_topic (body req)) then [] else ["topic"]) in
  post_upload os t_file t_note req w
  = (res_status_json 500 (ErrorOf (ValidationError paths)),
     {| notes := notes w; db_up := db_up w;
        disk := <[p := content file]> (disk w);
        trace := trace w ++ [FsWrite p] |})
  ∧ paths ≠ [].
Proof.
  intros Hf Hpdf Ht Hd Hmiss p paths.
  assert (paths ≠ []) as Hne.
  { subst paths. destruct Hmiss as [-> | [-> | ->]]; repeat case_match; done. }
  split; [|done].
  rewrite (post_upload_pdf_run _ _ _ _ _ _ Hf Hpdf).
  rewrite (proj2 (flagged_false _)) by done.
  rewrite missing_paths_filePath, blob_path_slashed_nonempty.
  rewrite (right_id_L [] (++)). fold paths.
  by destruct paths.
Qed.

Lemma upload_invalid_document_witness :
  let req := Sample.request
               (Sample.fields (JString "Civil") (JString "") JUndefined
                  (JString "intro"))
               (Some (Sample.pdf "a.pdf")) in
  post_upload Posix 1700 1701 req Sample.fresh
  = (res_status_json 500 (ErrorOf (ValidationError ["subject"; "topic"])),
     {| notes := []; db_up := true;
        disk := {[ "uploads/1700-a.pdf" := "%PDF-1.7" ]};
        trace := [FsWrite "uploads/1700-a.pdf"] |}).
Proof.
  intros req.
  exact (proj1 (upload_invalid_document Posix 1700 1701 req
                  (Sample.pdf "a.pdf") Sample.fresh
                  eq_refl eq_refl eq_refl eq_refl
                  (or_intror (or_introl eq_refl)))).
Defined.

(** X9.  An acceptable upload while the store does not answer: the insert
    is attempted and fails, the answer is 500 with the store's error, no
    document is added, and the blob stays on disk. *)
Theorem upload_store_down os t_file t_note req file w :
  acceptable req file →
  db_up w = false →
  let p := blob_path os t_file file in
  ∃ n,
    post_upload os t_file t_note req w
    = (res_status_json 500 (ErrorOf MongooseError),
       {| notes := notes w; db_up := false;
          disk := <[p := content file]> (disk w);
          trace := trace w ++ [FsWrite p; DbInsert n] |})
    ∧ originalName n = JString (originalname file).
Proof.
  intros Hacc Hup p.
  pose proof (acceptable_missing_paths os t_file t_note _ _ Hacc) as Hmiss.
  destruct Hacc as (Hf & Hpdf & Hfl & _).
  rewrite (post_upload_pdf_run _ _ _ _ _ _ Hf Hpdf), Hfl, Hmiss, Hup.
  exists (note_of t_note (body req) (req_file_of file p)).
  split; [|reflexivity]. unfold stored, log, set_disk. cbn.
  by rewrite Hup, <- (assoc_L (++)).
Qed.

Lemma upload_store_down_witness :
  let req := Sample.request
               (Sample.civil (JString "Bernoulli") (JString "intro"))
               (Some (Sample.pdf "a.pdf")) in
  let w := {| notes := []; db_up := false; disk := ∅; trace := [] |} in
  (post_upload Posix 1700 1701 req w).1
  = res_status_json 500 (ErrorOf MongooseError)
  ∧ disk (post_upload Posix 1700 1701 req w).2
    = {[ "uploads/1700-a.pdf" := "%PDF-1.7" ]}.
Proof.
  intros req w.
  destruct (upload_store_down Posix 1700 1701 req (Sample.pdf "a.pdf") w)
    as (n & Hrun & _); [by repeat split | reflexivity |].
  rewrite Hrun. by split.
Defined.

Lemma blob_backed_mono w w' :
  notes w' = notes w →
  (∀ p, is_Some (disk w !! p) → is_Some (disk w' !! p)) →
  blob_backed w → blob_backed w'.
Proof.
  intros Hn Hd Hw n Hin. rewrite Hn in Hin.
  destruct (Hw n Hin) as (p & Hp & Hsome). eauto.
Qed.

Lemma is_Some_insert_mono (d : gmap string string) p q data :
  is_Some (d !! q) → is_Some (<[p := data]> d !! q).
Proof.
  intros Hq. destruct (decide (p = q)) as [->|Hne].
  - rewrite lookup_insert_eq. eauto.
  - by rewrite lookup_insert_ne.
Qed.

(** X11.  An upload whose blob path is free keeps every document backed
    by a blob: when each document of the collection points to a file on
    disk before the request, each does after it, whichever way the request
    ends. *)
Theorem upload_keeps_blob_backed os t_file t_note req w :
  blob_backed w →
  (∀ file, file_part req = Some file →
           disk w !! blob_path os t_file file = None) →
  blob_backed (post_upload os t_file t_note req w).2.
Proof.
  intros Hw Hfree.
  destruct (file_part req) as [file|] eqn:Hf.
  - specialize (Hfree file eq_refl).
    destruct (decide (mimetype file = "application/pdf")) as [Hpdf|Hpdf];
      [|by rewrite (post_upload_not_pdf _ _ _ _ _ _ Hf Hpdf)].
    rewrite (post_upload_pdf_run _ _ _ _ _ _ Hf Hpdf).
    set (p := blob_path os t_file file) in *.
    destruct (flagged (body req)); [|destruct (missing_paths _);
      [destruct (db_up w)|]]; cbn [snd].
    + apply (blob_backed_mono w); [done| |done]. cbn.
      by rewrite delete_insert_eq, delete_id.
    + intros n [Hin| ->%list_elem_of_singleton]%elem_of_app.
      * destruct (Hw n Hin) as (q & Hq & Hsome). exists q. split; [done|].
        by apply is_Some_insert_mono.
      * exists p. split; [done|]. cbn. rewrite lookup_insert_eq. eauto.
    + apply (blob_backed_mono w); [done| |done].
      intros q. apply is_Some_insert_mono.
    + apply (blob_backed_mono w); [done| |done].
      intros q. apply is_Some_insert_mono.
  - by rewrite (post_upload_no_file_run _ _ _ _ _ Hf).
Qed.

Lemma upload_keeps_blob_backed_witness :
  let first := Sample.request
                 (Sample.civil (JString "Bernoulli") (JString "intro"))
                 (Some (Sample.pdf "a.pdf")) in
  let second := Sample.request
                  (Sample.civil (JString "Gore") (JString "intro"))
                  (Some (Sample.pdf "a.pdf")) in
  let w := (post_upload Posix 1700 1700 first Sample.fresh).2 in
  blob_backed (post_upload Posix 1701 1701 second w).2.
Proof.
  intros first second w.
  apply (upload_keeps_blob_backed Posix 1701 1701 second w).
  - intros n Hin. apply list_elem_of_singleton in Hin as ->.
    exists "uploads/1700-a.pdf". split; [reflexivity|].
    exists "%PDF-1.7". reflexivity.
  - intros file [= <-]. reflexivity.
Defined.

(** ** More on the search and listing routes *)

Lemma sort_desc_snoc_newest l n :
  Forall (λ m, uploadDate m < uploadDate n) l →
  sort_desc (l ++ [n]) = n :: sort_desc l.
Proof.
  induction 1 as [|m l Hm _ IH]; [done|].
  unfold sort_desc in *. cbn [foldr app]. rewrite IH. cbn [insert_desc].
  cbn beta in Hm.
  destruct (Z.leb_spec (uploadDate n) (uploadDate m)); [lia|done].
Qed.

Lemma not_newer_cases (n m : nat) (l : list Note) :
  (length (take n l) <? m)%nat = (length l <? m)%nat ∨ (n < m)%nat.
Proof.
  rewrite length_take.
  destruct (Nat.ltb_spec (n `min` length l) m), (Nat.ltb_spec (length l) m);
    try (by left); right; lia.
Qed.

Section more_store_facts.
Context `{TextIndex}.

(** X12.  The search and listing routes only read.  Whatever the query,
    the collection, the directory and the state of the connection are as
    before; the search makes no access without a query and one text query
    with one, the listing makes one query. *)
Theorem search_and_listing_read_only q branch w :
  (notes (get_search q branch w).2 = notes w
   ∧ disk (get_search q branch w).2 = disk w
   ∧ db_up (get_search q branch w).2 = db_up w
   ∧ trace (get_search q branch w).2
     = trace w ++ (if js_not q then [] else [DbFind (Text (js_to_string q))]))
  ∧ (notes (get_notes w).2 = notes w
     ∧ disk (get_notes w).2 = disk w
     ∧ db_up (get_notes w).2 = db_up w
     ∧ trace (get_notes w).2 = trace w ++ [DbFind All]).
Proof.
  split.
  - unfold get_search, search_callback.
    destruct (js_not q); [by rewrite (right_id_L [] (++))|].
    unfold run, try_catch, mbind, M_bind. rewrite Note_find_run.
    unfold mret, M_ret. by destruct (db_up w) eqn:Hup; cbn.
  - unfold get_notes, run, try_catch, mbind, M_bind. rewrite Note_find_run.
    unfold mret, M_ret. by destruct (db_up w) eqn:Hup; cbn.
Qed.

(** X13.  With at most twenty documents in the collection and a store that
    answers, the listing leaves none out: it returns the whole collection,
    reordered. *)
Theorem listing_small_collection w :
  db_up w = true →
  (length (notes w) ≤ 20)%nat →
  ∃ l, (get_notes w).1 = res_json (NoteList l) ∧ l ≡ₚ notes w.
Proof.
  intros Hup Hlen.
  unfold get_notes, run, try_catch, mbind, M_bind.
  rewrite Note_find_run, Hup. eexists. split; [reflexivity|].
  cbn [select]. rewrite take_ge.
  - apply sort_desc_perm.
  - by rewrite sort_desc_perm.
Qed.

(** X14.  Upload, then list.  After an accepted upload whose document is
    dated later than every document already stored, the listing starts
    with the new document. *)
Theorem uploaded_note_listed_first os t_file t_note req file w :
  acceptable req file →
  db_up w = true →
  Forall (λ m, uploadDate m < t_note) (notes w) →
  ∃ n rest,
    (get_notes (post_upload os t_file t_note req w).2).1
    = res_json (NoteList (n :: rest))
    ∧ topic n = body_topic (body req)
    ∧ originalName n = JString (originalname file)
    ∧ uploadDate n = t_note.
Proof.
  intros Hacc Hup Hdates.
  rewrite (post_upload_acceptable _ _ _ _ _ _ Hacc Hup). cbn [snd].
  unfold get_notes, run, try_catch, mbind, M_bind. rewrite Note_find_run.
  cbn [db_up set_notes log stored set_disk notes select]. rewrite Hup.
  rewrite sort_desc_snoc_newest by done.
  eexists _, _. split; [reflexivity|]. done.
Qed.

(** X15.  The limit of ten does not move the threshold of three: with a
    non-empty query and a store that answers, [external] is null exactly
    when the text query selects three documents or more in the whole
    collection. *)
Theorem search_external_threshold s branch w :
  s ≠ "" →
  db_up w = true →
  ∃ internal external,
    (get_search (JString s) branch w).1
    = res_json (SearchResult internal external)
    ∧ (external = None ↔ (3 ≤ length (text_search s (notes w)))%nat).
Proof.
  intros Hs Hup. rewrite (get_search_run _ _ _ Hs).
  unfold run, try_catch, mbind, M_bind. rewrite Note_find_run, Hup.
  eexists _, _. split; [reflexivity|]. cbn [select].
  destruct (not_newer_cases 10 3 (text_search s (notes w))) as [-> | ?];
    [|lia].
  destruct (Nat.ltb_spec (length (text_search s (notes w))) 3);
    split; (done || lia).
Qed.

End more_store_facts.

Lemma listing_small_collection_witness :
  ∃ l,
    (get_notes (H := Sample.substring_index)
       (Sample.world_of [Sample.note "Statics" 5;
                         Sample.note "Dynamics" 9])).1
    = res_json (NoteList l)
    ∧ l ≡ₚ [Sample.note "Statics" 5; Sample.note "Dynamics" 9].
Proof.
  apply (listing_small_collection (H := Sample.substring_index)
           (Sample.world_of [Sample.note "Statics" 5;
                             Sample.note "Dynamics" 9])).
  - reflexivity.
  - cbn. lia.
Defined.

Lemma uploaded_note_listed_first_witness :
  let req := Sample.request
               (Sample.civil (JString "Bernoulli") (JString "intro"))
               (Some (Sample.pdf "a.pdf")) in
  let w := Sample.world_of [Sample.note "Statics" 5;
                            Sample.note "Dynamics" 9] in
  ∃ n rest,
    (get_notes (H := Sample.substring_index)
       (post_upload Posix 1700 1701 req w).2).1
    = res_json (NoteList (n :: rest))
    ∧ topic n = JString "Bernoulli"
    ∧ originalName n = JString "a.pdf"
    ∧ uploadDate n = 1701.
Proof.
  intros req w.
  apply (uploaded_note_listed_first (H := Sample.substring_index)
           Posix 1700 1701 req (Sample.pdf "a.pdf") w).
  - by repeat split.
  - reflexivity.
  - repeat constructor.
Defined.

Lemma search_external_threshold_witness :
  ∃ internal,
    (get_search (H := Sample.substring_index) (JString "thermo") JUndefined
       (Sample.world_of (map (Sample.note "Thermodynamics") (seqZ 1 12)))).1
    = res_json (SearchResult internal None).
Proof.
  destruct (search_external_threshold (H := Sample.substring_index)
              "thermo" JUndefined
              (Sample.world_of (map (Sample.note "Thermodynamics") (seqZ 1 12)))
              ltac:(discriminate) eq_refl)
    as (internal & external & Hrun & Hnone).
  exists internal. rewrite Hrun.
  rewrite (proj2 Hnone); [reflexivity|]. vm_compute. lia.
Defined.

(** ** The path a document keeps *)

Lemma pretty_N_go_Forall (P : ascii → Prop) (x : N) (s : string) :
  (∀ d, P (pretty_N_char d)) →
  Forall P (Str.chars s) → Forall P (Str.chars (pretty_N_go x s)).
Proof.
  intros Hdigit. revert s. induction (N.lt_wf_0 x) as [x _ IH]; intros s Hs.
  assert (x = 0 ∨ 0 < x)%N as [->|Hx] by lia.
  - by rewrite pretty_N_go_0.
  - rewrite pretty_N_go_step by done. apply IH; [by apply N.div_lt|].
    cbn [Str.chars]. by constructor.
Qed.

Lemma pretty_Z_no_backslash (x : Z) :
  Forall (λ c, c ≠ Str.backslash) (Str.chars (pretty x)).
Proof.
  assert (∀ n : N, Forall (λ c, c ≠ Str.backslash) (Str.chars (pretty n)))
    as HN.
  { intros n. unfold pretty, pretty_N. case_decide.
    - by repeat constructor.
    - apply pretty_N_go_Forall; [|constructor].
      intros d. unfold pretty_N_char. by repeat case_match. }
  destruct x as [|q|q]; unfold pretty, pretty_Z.
  - by repeat constructor.
  - apply HN.
  - rewrite StrMore.chars_app. apply Forall_app.
    split; [by repeat constructor|apply HN].
Qed.

Lemma dash_spaces_go_no_backslash (in_run : bool) (s : string) :
  Forall (λ c, c ≠ Str.backslash) (Str.chars s) →
  Forall (λ c, c ≠ Str.backslash) (Str.chars (Str.dash_spaces_go in_run s)).
Proof.
  revert in_run. induction s as [|c s IH]; intros in_run Hs; [constructor|].
  cbn [Str.chars] in Hs. apply Forall_cons in Hs as [Hc Hs].
  cbn [Str.dash_spaces_go]. destruct (Ascii.is_space c).
  - destruct in_run; [by apply IH|]. cbn [Str.chars].
    constructor; [done|by apply IH].
  - cbn [Str.chars]. constructor; [done|by apply IH].
Qed.

(** X18.  On a POSIX host, for a file whose name holds no backslash, the
    [filePath] an accepted upload saves is the very path of the blob:
    looking it up in the directory gives the bytes that were sent. *)
Theorem posix_filePath_is_blob_path t_file t_note req file w :
  acceptable req file →
  db_up w = true →
  Forall (λ c, c ≠ Str.backslash) (Str.chars (originalname file)) →
  let w' := (post_upload Posix t_file t_note req w).2 in
  ∃ n p,
    last (notes w') = Some n
    ∧ filePath n = JString p
    ∧ p = blob_path Posix t_file file
    ∧ disk w' !! p = Some (content file).
Proof.
  intros Hacc Hup Hname w'. subst w'.
  rewrite (post_upload_acceptable _ _ _ _ _ _ Hacc Hup). cbn [snd].
  eexists _, (blob_path Posix t_file file).
  cbn [notes set_notes disk log stored set_disk].
  rewrite last_snoc, lookup_insert_eq. split_and!; try done.
  cbn [filePath note_of new_Note req_file_of path]. f_equal.
  apply StrFacts.slash_backslashes_id.
  assert (Forall (λ c, c ≠ Str.backslash)
            (Str.chars (blob_path Posix t_file file))) as Hclean.
  { unfold blob_path, path_join_uploads, storage_filename.
    rewrite !StrMore.chars_app, !Forall_app. split_and!.
    - by repeat constructor.
    - apply pretty_Z_no_backslash.
    - by repeat constructor.
    - by apply dash_spaces_go_no_backslash. }
  intros Hin. by apply (proj1 (Forall_forall _ _) Hclean _ Hin).
Qed.

Lemma posix_filePath_is_blob_path_witness :
  let req := Sample.request
               (Sample.civil (JString "Bernoulli") (JString "intro"))
               (Some (Sample.pdf "week 1.pdf")) in
  ∃ n,
    last (notes (post_upload Posix 1700 1701 req Sample.fresh).2) = Some n
    ∧ filePath n = JString "uploads/1700-week-1.pdf"
    ∧ disk (post_upload Posix 1700 1701 req Sample.fresh).2
        !! "uploads/1700-week-1.pdf" = Some "%PDF-1.7".
Proof.
  intros req.
  destruct (posix_filePath_is_blob_path 1700 1701 req
              (Sample.pdf "week 1.pdf") Sample.fresh)
    as (n & p & Hlast & Hpath & -> & Hdisk).
  - by repeat split.
  - reflexivity.
  - by repeat constructor.
  - exists n. by split_and!.
Defined.


(** * Properties of the client *)

(** ** The search of the home page *)

(** X16.  When the search request fails, for whatever reason, the page
    shows the mock notes whose subject or topic holds the query as a
    case-insensitive substring, in the order of the mock list, and always
    shows a knowledge card, however many notes matched; the description
    and the branch of a note are not searched. *)
Theorem offline_search_results st err :
  Client.query st ≠ "" →
  let st' := (Client.handleSearch st (inr err)).1 in
  Client.serverError st' = true
  ∧ Client.hasSearched st' = true
  ∧ Client.loading st' = false
  ∧ Client.external (Client.results st') ≠ None
  ∧ Client.internal (Client.results st') `sublist_of` Client.MOCK_NOTES
  ∧ ∀ n, n ∈ Client.internal (Client.results st') ↔
         n ∈ Client.MOCK_NOTES
         ∧ (ci_occurs (Client.query st) (Client.subject n)
            ∨ ci_occurs (Client.query st) (Client.topic n)).
Proof.
  intros Hq st'. subst st'. unfold Client.handleSearch.
  rewrite bool_decide_eq_false_2 by done.
  cbn [fst Client.serverError Client.hasSearched Client.loading
         Client.results Client.external Client.internal].
  split_and!; try done.
  - apply sublist_filter.
  - intros n. unfold Client.mockResults. rewrite list_elem_of_filter.
    rewrite orb_true_iff, !StrFacts.includes_lower. unfold ci_occurs.
    tauto.
Qed.

Lemma offline_search_results_witness :
  let st := {| Client.query := "THERMO";
               Client.results := {| Client.internal := [];
                                    Client.external := None |};
               Client.loading := false; Client.recent := [];
               Client.hasSearched := false;
               Client.serverError := false |} in
  Client.internal
    (Client.results (Client.handleSearch st (inr Client.network_error)).1)
  `sublist_of` Client.MOCK_NOTES
  ∧ Client.internal
      (Client.results (Client.handleSearch st (inr Client.network_error)).1)
    = [Client.mock "2" "Mechanical" "Thermodynamics" "Laws of Thermodynamics"
         "Summary of 1st and 2nd laws with real-world engine examples."].
Proof.
  intros st. split; [|reflexivity].
  destruct (offline_search_results st Client.network_error ltac:(discriminate))
    as (_ & _ & _ & _ & Hsub & _).
  exact Hsub.
Defined.

(** ** The upload page in front of the server *)

Lemma handleSubmit_settle st f code b :
  Client.file st = Some f →
  code = 201 ∨ code = 400 ∨ code = 500 →
  Client.status
    (Client.handleSubmit st (Client.settle (res_status_json code b))).1
  = Some (if bool_decide (code = 400) then Client.Failed else Client.Success).
Proof.
  intros Hf Hcode. unfold Client.handleSubmit. rewrite Hf.
  by destruct Hcode as [-> | [-> | ->]].
Qed.

(** X17.  The upload page and the server together.  With a file chosen,
    the page ends on its error message exactly when the server turned a
    PDF away for moderation; in every other case it ends on its success
    message.  In particular each 500 answer of the server (a file that is
    not a PDF, a document [save] rejects, a store that does not answer)
    is shown as a success although no document was saved. *)
Theorem upload_page_over_server os t_file t_note st f w :
  Client.file st = Some f →
  let req := Client.form_request f (Client.formData st) in
  let answer := post_upload os t_file t_note req w in
  let st' := (Client.handleSubmit st (Client.settle answer.1)).1 in
  Client.status st'
  = Some (if bool_decide (mimetype f = "application/pdf") && flagged (body req)
          then Client.Failed else Client.Success)
  ∧ (status answer.1 = 500 →
     Client.status st' = Some Client.Success ∧ notes answer.2 = notes w).
Proof.
  intros Hfile req answer st'. subst st' answer.
  assert (file_part req = Some f) as Hf by done.
  destruct (decide (mimetype f = "application/pdf")) as [Hpdf|Hpdf].
  - rewrite (post_upload_pdf_run _ _ _ _ _ _ Hf Hpdf).
    rewrite bool_decide_eq_true_2 by done. cbn [andb].
    destruct (flagged (body req)); [|destruct (missing_paths _);
      [destruct (db_up w)|]]; cbn [fst snd];
      rewrite (handleSubmit_settle _ _ _ _ Hfile) by tauto;
      (split; [done|]); cbn; by intros.
  - rewrite (post_upload_not_pdf _ _ _ _ _ _ Hf Hpdf).
    rewrite bool_decide_eq_false_2 by done. cbn [andb fst snd].
    change {| status := 500;
              payload := ErrorPage (Error "Only PDF files are allowed!") |}
      with (res_status_json 500
              (ErrorPage (Error "Only PDF files are allowed!"))).
    rewrite (handleSubmit_settle _ _ _ _ Hfile) by tauto. by split.
Qed.

Lemma upload_page_over_server_witness :
  let st := {| Client.file := Some Sample.png;
               Client.formData :=
                 {| Client.form_branch := "Civil";
                    Client.form_subject := "Fluid Mechanics";
                    Client.form_topic := "Bernoulli";
                    Client.form_description := "" |};
               Client.status := None |} in
  let req := Client.form_request Sample.png (Client.formData st) in
  let answer := post_upload Posix 1700 1701 req Sample.fresh in
  status answer.1 = 500
  ∧ Client.status (Client.handleSubmit st (Client.settle answer.1)).1
    = Some Client.Success
  ∧ notes answer.2 = [].
Proof.
  intros st req answer.
  destruct (upload_page_over_server Posix 1700 1701 st Sample.png Sample.fresh
              eq_refl) as [_ H500].
  split; [reflexivity|]. exact (H500 eq_refl).
Defined.
